(** * The front-matter pass of the API documentation generator

    A shallow embedding of [scripts/lib/api/addFrontMatter.ts] and the
    properties of it that the specification states.

    The function receives an array of page objects and a package object.
    It walks the array and, for each page, assigns to the page's
    [markdown] field.  Pages are JavaScript objects, hence references:
    the embedding keeps them in a store indexed by location, the array
    is a list of locations, and the assignment is an in-place update of
    the store. *)

From Stdlib Require Import Ascii String.
From stdpp Require Import gmap strings list fin_maps.

Local Open Scope string_scope.

(** ** Strings and template literals *)

(** The line feed that the template literals of the source contain at
    each line end. *)
Definition LF : string := String "010"%char EmptyString.

(** A field declared optional ([name?: string]) holds a string or
    [undefined]. *)
Definition optional := option string.

(** The test [if (x)] on an optional string: [undefined] and the empty
    string are falsy, every other string is truthy. *)
Definition truthy (x : optional) : bool :=
  match x with
  | None => false
  | Some EmptyString => false
  | Some (String _ _) => true
  end.

(** The text that [${x}] puts into a template literal: the string
    itself, and the nine letters of [undefined] for a missing value. *)
Definition interpolate (x : optional) : string :=
  match x with
  | Some s => s
  | None => "undefined"
  end.

(** ** The data the function reads *)

(** Modelled from the spec: the declaration of [Metadata], the type of
    the [meta] field of a conversion result, is missing.  The fields are
    those the function reads; each may be absent. *)
Record Metadata := {
  apiType : optional;
  apiName : optional;
  hardcodedFrontmatter : optional;
}.

(** Modelled from the spec: the declaration of [HtmlToMdResult]
    ([./HtmlToMdResult]) is missing.  A converted page: its body text
    [markdown], its metadata and the release-notes flag. *)
Record HtmlToMdResult := {
  markdown : string;
  meta : Metadata;
  isReleaseNotes : bool;
}.

(** Modelled from the spec: the declaration of [Pkg] ([./Pkg]) is
    missing.  The package being processed: its title, its version
    without the patch component, and whether its release notes are kept
    per version. *)
Record Pkg := {
  title : string;
  versionWithoutPatch : string;
  hasSeparateReleaseNotes : bool;
}.

(** The assignment [result.markdown = s] on the object itself. *)
Definition set_markdown (result : HtmlToMdResult) (s : string) : HtmlToMdResult :=
  {| markdown := s; meta := meta result; isReleaseNotes := isReleaseNotes result |}.

(** Objects live in a store; an array of objects is a list of their
    locations, so the same object may be listed more than once. *)
Definition loc := nat.
Abbreviation store := (gmap loc HtmlToMdResult).

(** ** addFrontMatter *)

Section AddFrontMatter.

(** [getLastPartFromFullIdentifier] is imported from [../stringUtils];
    the pass is verified for whatever string function it is. *)
Variable getLastPartFromFullIdentifier : string -> string.

(** One turn of the [for] loop, on the object that the loop variable
    [result] refers to. *)
Definition loop_body (pkg : Pkg) (result : HtmlToMdResult) : HtmlToMdResult :=
  let markdown := markdown result in
  if truthy (hardcodedFrontmatter (meta result)) then
    set_markdown result
      ("---" +:+ LF +:+
       interpolate (hardcodedFrontmatter (meta result)) +:+ LF +:+
       "---" +:+ LF +:+
       LF +:+
       markdown +:+ LF)
  else if truthy (apiName (meta result)) then
    set_markdown result
      ("---" +:+ LF +:+
       "title: " +:+ getLastPartFromFullIdentifier (interpolate (apiName (meta result))) +:+ LF +:+
       "description: API reference for " +:+ interpolate (apiName (meta result)) +:+ LF +:+
       "in_page_toc_min_heading_level: 1" +:+ LF +:+
       "python_api_type: " +:+ interpolate (apiType (meta result)) +:+ LF +:+
       "python_api_name: " +:+ interpolate (apiName (meta result)) +:+ LF +:+
       "---" +:+ LF +:+
       LF +:+
       markdown +:+ LF)
  else if isReleaseNotes result then
    let versionStr :=
      if hasSeparateReleaseNotes pkg
      then " " +:+ versionWithoutPatch pkg
      else EmptyString in
    let descriptionSuffix :=
      if hasSeparateReleaseNotes pkg
      then "in " +:+ title pkg +:+ versionStr
      else "to " +:+ title pkg in
    set_markdown result
      ("---" +:+ LF +:+
       "title: " +:+ title pkg +:+ versionStr +:+ " release notes" +:+ LF +:+
       "description: Changes made " +:+ descriptionSuffix +:+ LF +:+
       "in_page_toc_max_heading_level: 2" +:+ LF +:+
       "---" +:+ LF +:+
       LF +:+
       markdown +:+ LF)
  else result.

(** The loop: the objects are visited in array order, each one
    updated in place in the store.  An array of objects has no entry
    without an object behind it; at such a location [alter] would leave
    the store as it is. *)
Definition addFrontMatter (results : list loc) (pkg : Pkg) (h : store) : store :=
  foldl (fun h result => alter (loop_body pkg) result h) h results.

End AddFrontMatter.

(** ** stringUtils *)

Module stringUtils.

(** Modelled from the spec: the dot-delimited segments of a name, at
    least one, in order. *)
Fixpoint split_dot (s : string) : list string :=
  match s with
  | EmptyString => [EmptyString]
  | String c s' =>
      if Ascii.eqb c "."%char then EmptyString :: split_dot s'
      else match split_dot s' with
           | seg :: rest => String c seg :: rest
           | [] => [String c EmptyString]
           end
  end.

(** Modelled from the spec: the source of [getLastPartFromFullIdentifier]
    (scripts/lib/stringUtils.ts) is missing; the specification gives its
    result as the last dot-delimited segment of the fully qualified
    symbol name, [a.b.C] giving [C]. *)
Definition getLastPartFromFullIdentifier (fullIdentifierName : string) : string :=
  List.last (split_dot fullIdentifierName) EmptyString.

End stringUtils.

(** ** The header blocks of the specification *)

(** A block of lines between a leading and a trailing line of three
    hyphens. *)
Definition framed (lines : string) : string :=
  "---" +:+ LF +:+ lines +:+ LF +:+ "---".

(** Hardcoded case: the supplied text, framed. *)
Definition hardcodedHeader (payload : string) : string :=
  framed payload.

(** API-symbol case: five keys in a fixed order. *)
Definition apiHeader (title_ name kind : string) : string :=
  framed ("title: " +:+ title_ +:+ LF +:+
          "description: " +:+ ("API reference for " +:+ name) +:+ LF +:+
          "in_page_toc_min_heading_level: 1" +:+ LF +:+
          "python_api_type: " +:+ kind +:+ LF +:+
          "python_api_name: " +:+ name).

(** Release-notes case: title, description and the heading-level key. *)
Definition releaseNotesHeader (title_ description : string) : string :=
  framed ("title: " +:+ title_ +:+ LF +:+
          "description: " +:+ description +:+ LF +:+
          "in_page_toc_max_heading_level: 2").

(** The release-notes header of a package: versioned when the package
    has separate release notes, evergreen otherwise. *)
Definition packageReleaseNotesHeader (pkg : Pkg) : string :=
  if hasSeparateReleaseNotes pkg
  then releaseNotesHeader
         (title pkg +:+ " " +:+ versionWithoutPatch pkg +:+ " release notes")
         ("Changes made in " +:+ title pkg +:+ " " +:+ versionWithoutPatch pkg)
  else releaseNotesHeader
         (title pkg +:+ " release notes")
         ("Changes made to " +:+ title pkg).

(** No dot occurs in the string: it is a single segment. *)
Fixpoint dotless (s : string) : bool :=
  match s with
  | EmptyString => true
  | String c s' => negb (Ascii.eqb c "."%char) && dotless s'
  end.

(** The header that the specification selects for a page, first match
    first: hardcoded, then API symbol, then release notes, else none. *)
Definition frontMatter (g : string -> string) (pkg : Pkg) (r : HtmlToMdResult)
  : option string :=
  if truthy (hardcodedFrontmatter (meta r)) then
    Some (hardcodedHeader (interpolate (hardcodedFrontmatter (meta r))))
  else if truthy (apiName (meta r)) then
    Some (apiHeader (g (interpolate (apiName (meta r))))
                    (interpolate (apiName (meta r)))
                    (interpolate (apiType (meta r))))
  else if isReleaseNotes r then
    Some (packageReleaseNotesHeader pkg)
  else None.

(** How many times the array lists the object at [l]. *)
Fixpoint occurrences (l : loc) (results : list loc) : nat :=
  match results with
  | [] => 0
  | x :: rest => (if decide (x = l) then 1 else 0) + occurrences l rest
  end.

(** The pages as the caller sees them through the array. *)
Definition pages (results : list loc) (h : store) : list (option HtmlToMdResult) :=
  (fun l => h !! l) <$> results.

(** ** Which branch a page reaches *)

(** One of the three tests of the chain succeeds: the page is assigned
    a new body. *)
Definition matched (r : HtmlToMdResult) : bool :=
  truthy (hardcodedFrontmatter (meta r))
  || truthy (apiName (meta r))
  || isReleaseNotes r.

(** The page reaches the second branch, the only one that calls
    [getLastPartFromFullIdentifier] and reads [apiType]. *)
Definition reaches_api_branch (r : HtmlToMdResult) : bool :=
  negb (truthy (hardcodedFrontmatter (meta r)))
  && truthy (apiName (meta r)).

(** The page reaches the third branch, the only one that reads the
    package. *)
Definition reaches_release_notes_branch (r : HtmlToMdResult) : bool :=
  negb (truthy (hardcodedFrontmatter (meta r)))
  && negb (truthy (apiName (meta r)))
  && isReleaseNotes r.

(** ** Sample inputs *)

Module Sample.

Definition qiskit_045 : Pkg :=
  {| title := "Qiskit"; versionWithoutPatch := "0.45"; hasSeparateReleaseNotes := true |}.

Definition qiskit_evergreen : Pkg :=
  {| title := "Qiskit"; versionWithoutPatch := "0.45"; hasSeparateReleaseNotes := false |}.

Definition page (body : string) (type name hardcoded : optional) (notes : bool) : HtmlToMdResult :=
  {| markdown := body;
     meta := {| apiType := type; apiName := name; hardcodedFrontmatter := hardcoded |};
     isReleaseNotes := notes |}.

Definition measure : HtmlToMdResult :=
  page "# Hi" (Some "class") (Some "qiskit.circuit.Measure") None false.

Definition handwritten : HtmlToMdResult :=
  page "body" None None (Some "title: By hand") true.

Definition notes : HtmlToMdResult :=
  page "## 0.45.0" None None None true.

Definition plain : HtmlToMdResult :=
  page "text" None None None false.

End Sample.

(** ** Strings *)

Lemma string_app_cons (c : ascii) (s t : string) :
  String c s +:+ t = String c (s +:+ t).
Proof. reflexivity. Qed.

Lemma string_app_nil_l (s : string) : EmptyString +:+ s = s.
Proof. reflexivity. Qed.

Lemma string_app_assoc (s t u : string) : (s +:+ t) +:+ u = s +:+ t +:+ u.
Proof.
  induction s as [|c s IH]; [reflexivity|].
  rewrite !string_app_cons. by rewrite IH.
Qed.

Lemma string_app_length (s t : string) :
  String.length (s +:+ t) = String.length s + String.length t.
Proof.
  induction s as [|c s IH]; [reflexivity|].
  rewrite string_app_cons. simpl. by rewrite IH.
Qed.

Lemma truthy_Some (s : string) : truthy (Some s) = true <-> s <> EmptyString.
Proof. destruct s; simpl; split; intros; congruence. Qed.

Lemma truthy_interpolate (x : optional) :
  truthy x = true -> x = Some (interpolate x).
Proof. destruct x; simpl; [done|discriminate]. Qed.

(** Flatten nested concatenations, so that two spellings of one text
    become syntactically equal. *)
Ltac flatten_strings :=
  unfold hardcodedHeader, apiHeader, releaseNotesHeader, framed;
  repeat (rewrite string_app_assoc || rewrite string_app_nil_l).

(** ** One turn of the loop *)

Section LoopBody.

Variable g : string -> string.
Variable pkg : Pkg.

Lemma loop_body_meta r : meta (loop_body g pkg r) = meta r.
Proof. unfold loop_body. by repeat case_match. Qed.

Lemma loop_body_isReleaseNotes r :
  isReleaseNotes (loop_body g pkg r) = isReleaseNotes r.
Proof. unfold loop_body. by repeat case_match. Qed.

Lemma loop_body_hardcoded r :
  truthy (hardcodedFrontmatter (meta r)) = true ->
  markdown (loop_body g pkg r) =
    hardcodedHeader (interpolate (hardcodedFrontmatter (meta r)))
      +:+ LF +:+ LF +:+ markdown r +:+ LF.
Proof.
  intros Hh. unfold loop_body. rewrite Hh. simpl. by flatten_strings.
Qed.

Lemma loop_body_api r :
  truthy (hardcodedFrontmatter (meta r)) = false ->
  truthy (apiName (meta r)) = true ->
  markdown (loop_body g pkg r) =
    apiHeader (g (interpolate (apiName (meta r))))
              (interpolate (apiName (meta r)))
              (interpolate (apiType (meta r)))
      +:+ LF +:+ LF +:+ markdown r +:+ LF.
Proof.
  intros Hh Ha. unfold loop_body. rewrite Hh, Ha. simpl. by flatten_strings.
Qed.

Lemma loop_body_notes_separate r :
  truthy (hardcodedFrontmatter (meta r)) = false ->
  truthy (apiName (meta r)) = false ->
  isReleaseNotes r = true ->
  hasSeparateReleaseNotes pkg = true ->
  markdown (loop_body g pkg r) =
    releaseNotesHeader
      (title pkg +:+ " " +:+ versionWithoutPatch pkg +:+ " release notes")
      ("Changes made in " +:+ title pkg +:+ " " +:+ versionWithoutPatch pkg)
      +:+ LF +:+ LF +:+ markdown r +:+ LF.
Proof.
  intros Hh Ha Hn Hs. unfold loop_body. rewrite Hh, Ha, Hn, Hs. simpl.
  by flatten_strings.
Qed.

Lemma loop_body_notes_evergreen r :
  truthy (hardcodedFrontmatter (meta r)) = false ->
  truthy (apiName (meta r)) = false ->
  isReleaseNotes r = true ->
  hasSeparateReleaseNotes pkg = false ->
  markdown (loop_body g pkg r) =
    releaseNotesHeader
      (title pkg +:+ " release notes")
      ("Changes made to " +:+ title pkg)
      +:+ LF +:+ LF +:+ markdown r +:+ LF.
Proof.
  intros Hh Ha Hn Hs. unfold loop_body. rewrite Hh, Ha, Hn, Hs. simpl.
  by flatten_strings.
Qed.

Lemma loop_body_passthrough r :
  truthy (hardcodedFrontmatter (meta r)) = false ->
  truthy (apiName (meta r)) = false ->
  isReleaseNotes r = false ->
  loop_body g pkg r = r.
Proof. intros Hh Ha Hn. unfold loop_body. by rewrite Hh, Ha, Hn. Qed.

(** The pass refines the selection of the specification: the body
    becomes the selected header, an empty line, the old body and a
    line feed, or stays as it is when no header is selected. *)
Lemma loop_body_frontMatter r :
  markdown (loop_body g pkg r)
  = match frontMatter g pkg r with
    | Some header => header +:+ LF +:+ LF +:+ markdown r +:+ LF
    | None => markdown r
    end.
Proof.
  unfold frontMatter.
  destruct (truthy (hardcodedFrontmatter (meta r))) eqn:Hh.
  { by apply loop_body_hardcoded. }
  destruct (truthy (apiName (meta r))) eqn:Ha.
  { by apply loop_body_api. }
  destruct (isReleaseNotes r) eqn:Hn.
  - unfold packageReleaseNotesHeader.
    destruct (hasSeparateReleaseNotes pkg) eqn:Hs.
    + by apply loop_body_notes_separate.
    + by apply loop_body_notes_evergreen.
  - by rewrite loop_body_passthrough.
Qed.

(** The selection reads only what the pass leaves alone. *)
Lemma frontMatter_loop_body r :
  frontMatter g pkg (loop_body g pkg r) = frontMatter g pkg r.
Proof.
  unfold frontMatter.
  by rewrite loop_body_meta, loop_body_isReleaseNotes.
Qed.

Lemma frontMatter_matches r :
  truthy (hardcodedFrontmatter (meta r)) = true
  \/ truthy (apiName (meta r)) = true
  \/ isReleaseNotes r = true ->
  exists lines, frontMatter g pkg r = Some (framed lines).
Proof.
  unfold frontMatter, packageReleaseNotesHeader,
    hardcodedHeader, apiHeader, releaseNotesHeader.
  intros Hm. repeat case_match; eauto.
  destruct Hm as [?|[?|?]]; congruence.
Qed.

End LoopBody.

(** ** The loop over the store *)

Section Loop.

Variable g : string -> string.
Variable pkg : Pkg.

Lemma addFrontMatter_cons x rest (h : store) :
  addFrontMatter g (x :: rest) pkg h
  = addFrontMatter g rest pkg (alter (loop_body g pkg) x h).
Proof. reflexivity. Qed.

(** Each object is rewritten once per listing, and by nothing else. *)
Lemma addFrontMatter_lookup results (h : store) l :
  addFrontMatter g results pkg h !! l
  = Nat.iter (occurrences l results) (loop_body g pkg) <$> h !! l.
Proof.
  revert h. induction results as [|x rest IH]; intros h.
  - simpl. by destruct (h !! l).
  - rewrite addFrontMatter_cons, IH, lookup_alter. simpl.
    destruct (decide (x = l)) as [->|Hne]; simpl.
    + destruct (h !! l) as [r|]; simpl; [|done].
      by rewrite <- Nat.iter_succ_r.
    + done.
Qed.

Lemma addFrontMatter_once results (h : store) l r :
  h !! l = Some r ->
  occurrences l results = 1 ->
  addFrontMatter g results pkg h !! l = Some (loop_body g pkg r).
Proof. intros Hl Ho. by rewrite addFrontMatter_lookup, Hl, Ho. Qed.

Lemma iter_loop_body_meta n r :
  meta (Nat.iter n (loop_body g pkg) r) = meta r.
Proof. induction n as [|n IH]; simpl; [done|]. by rewrite loop_body_meta. Qed.

Lemma iter_loop_body_isReleaseNotes n r :
  isReleaseNotes (Nat.iter n (loop_body g pkg) r) = isReleaseNotes r.
Proof.
  induction n as [|n IH]; simpl; [done|]. by rewrite loop_body_isReleaseNotes.
Qed.

Lemma addFrontMatter_dom results (h : store) :
  dom (addFrontMatter g results pkg h) = dom h.
Proof.
  revert h. induction results as [|x rest IH]; intros h; [done|].
  by rewrite addFrontMatter_cons, IH, dom_alter_L.
Qed.

Lemma occurrences_not_listed l results :
  l ∉ results -> occurrences l results = 0.
Proof.
  induction results as [|x rest IH]; [done|].
  intros Hn. apply not_elem_of_cons in Hn as [Hne Hn]. simpl.
  rewrite decide_False by congruence. by rewrite IH.
Qed.

End Loop.

(** ** stringUtils: the last segment *)

Module stringUtilsFacts.
Import stringUtils.

Lemma split_dot_nonempty s : split_dot s <> [].
Proof.
  destruct s as [|c s]; simpl; [done|].
  destruct (Ascii.eqb c "."); [done|]. by destruct (split_dot s).
Qed.

Lemma split_dot_dotless s : dotless s = true -> split_dot s = [s].
Proof.
  induction s as [|c s IH]; simpl; [done|].
  intros [Hc Hs]%andb_prop. apply negb_true_iff in Hc.
  rewrite Hc. by rewrite IH.
Qed.

Lemma split_dot_app p s :
  split_dot (p +:+ "." +:+ s) = (split_dot p ++ split_dot s)%list.
Proof.
  induction p as [|c p IH]; [reflexivity|].
  rewrite string_app_cons. simpl. rewrite IH.
  destruct (Ascii.eqb c "."); [done|].
  pose proof (split_dot_nonempty p) as Hp.
  by destruct (split_dot p).
Qed.

Lemma last_segment_after_dot p s :
  dotless s = true -> getLastPartFromFullIdentifier (p +:+ "." +:+ s) = s.
Proof.
  intros Hs. unfold getLastPartFromFullIdentifier.
  rewrite split_dot_app, (split_dot_dotless s Hs).
  apply List.last_last.
Qed.

Lemma last_segment_dotless s :
  dotless s = true -> getLastPartFromFullIdentifier s = s.
Proof.
  intros Hs. unfold getLastPartFromFullIdentifier.
  by rewrite split_dot_dotless.
Qed.

End stringUtilsFacts.

(** ** The cases of the pass *)

(** C1 (as the code has it).  A page listed once whose metadata has
    [hardcodedFrontmatter] set, whatever its other fields: after the pass
    its body is the three hyphens, the payload, the three hyphens, an
    empty line, the original body, and one more line feed after it. *)
Theorem hardcoded_body g results pkg (h : store) l r payload :
  h !! l = Some r ->
  occurrences l results = 1 ->
  hardcodedFrontmatter (meta r) = Some payload ->
  payload <> EmptyString ->
  markdown <$> addFrontMatter g results pkg h !! l
  = Some ("---" +:+ LF +:+ payload +:+ LF +:+ "---" +:+ LF +:+ LF +:+
          markdown r +:+ LF).
Proof.
  intros Hl Ho Hp Hne.
  rewrite (addFrontMatter_once g pkg results h l r Hl Ho). simpl. f_equal.
  rewrite loop_body_hardcoded by (rewrite Hp; by apply truthy_Some).
  rewrite Hp. simpl. by flatten_strings.
Qed.

Lemma hardcoded_body_witness :
  markdown <$> addFrontMatter stringUtils.getLastPartFromFullIdentifier [0]
                 Sample.qiskit_045 {[0 := Sample.handwritten]} !! 0
  = Some ("---" +:+ LF +:+ "title: By hand" +:+ LF +:+ "---" +:+ LF +:+ LF +:+
          "body" +:+ LF).
Proof.
  apply (hardcoded_body stringUtils.getLastPartFromFullIdentifier [0]
           Sample.qiskit_045 {[0 := Sample.handwritten]} 0 Sample.handwritten
           "title: By hand");
    [reflexivity | reflexivity | reflexivity | discriminate].
Defined.

(** C1 as the specification words it fails: the body is not the header
    followed by the unchanged original body, a line feed comes after. *)
Lemma hardcoded_body_not_verbatim :
  markdown <$> addFrontMatter stringUtils.getLastPartFromFullIdentifier [0]
                 Sample.qiskit_045 {[0 := Sample.handwritten]} !! 0
  <> Some ("---" +:+ LF +:+ "title: By hand" +:+ LF +:+ "---" +:+ LF +:+ LF +:+
           "body").
Proof. vm_compute. discriminate. Qed.

(** C2.  A page listed once with no hardcoded payload and with [apiName]
    and [apiType] set: the new body opens with the five keys in their
    fixed order, the title being the last segment of the name; the
    page of [qiskit.circuit.Measure] gives the header of the scenario. *)
Theorem api_symbol_body results pkg (h : store) l r name kind :
  h !! l = Some r ->
  occurrences l results = 1 ->
  truthy (hardcodedFrontmatter (meta r)) = false ->
  apiName (meta r) = Some name ->
  name <> EmptyString ->
  apiType (meta r) = Some kind ->
  markdown <$> addFrontMatter stringUtils.getLastPartFromFullIdentifier
                 results pkg h !! l
  = Some ("---" +:+ LF +:+
          "title: " +:+ stringUtils.getLastPartFromFullIdentifier name +:+ LF +:+
          "description: API reference for " +:+ name +:+ LF +:+
          "in_page_toc_min_heading_level: 1" +:+ LF +:+
          "python_api_type: " +:+ kind +:+ LF +:+
          "python_api_name: " +:+ name +:+ LF +:+
          "---" +:+ LF +:+ LF +:+
          markdown r +:+ LF)
  /\ (forall path segment,
        name = path +:+ "." +:+ segment -> dotless segment = true ->
        stringUtils.getLastPartFromFullIdentifier name = segment)
  /\ (dotless name = true ->
        stringUtils.getLastPartFromFullIdentifier name = name)
  /\ (exists rest,
        markdown <$> addFrontMatter stringUtils.getLastPartFromFullIdentifier
                       [l] pkg {[l := Sample.measure]} !! l
        = Some ("---" +:+ LF +:+
                "title: Measure" +:+ LF +:+
                "description: API reference for qiskit.circuit.Measure" +:+ LF +:+
                "in_page_toc_min_heading_level: 1" +:+ LF +:+
                "python_api_type: class" +:+ LF +:+
                "python_api_name: qiskit.circuit.Measure" +:+ LF +:+
                "---" +:+ LF +:+ LF +:+
                "# Hi" +:+ rest)).
Proof.
  intros Hl Ho Hh Hn Hne Hk. repeat split.
  - rewrite (addFrontMatter_once _ pkg results h l r Hl Ho). simpl. f_equal.
    rewrite loop_body_api by (rewrite ?Hn; by try apply truthy_Some).
    rewrite Hn, Hk. simpl. by flatten_strings.
  - intros path segment -> Hs. by apply stringUtilsFacts.last_segment_after_dot.
  - apply stringUtilsFacts.last_segment_dotless.
  - exists LF.
    rewrite (addFrontMatter_once _ pkg [l] {[l := Sample.measure]} l Sample.measure).
    + reflexivity.
    + apply lookup_singleton_eq.
    + simpl. by rewrite decide_True.
Qed.

Lemma api_symbol_body_witness :
  markdown <$> addFrontMatter stringUtils.getLastPartFromFullIdentifier [0]
                 Sample.qiskit_045 {[0 := Sample.measure]} !! 0
  = Some ("---" +:+ LF +:+
          "title: Measure" +:+ LF +:+
          "description: API reference for qiskit.circuit.Measure" +:+ LF +:+
          "in_page_toc_min_heading_level: 1" +:+ LF +:+
          "python_api_type: class" +:+ LF +:+
          "python_api_name: qiskit.circuit.Measure" +:+ LF +:+
          "---" +:+ LF +:+ LF +:+
          "# Hi" +:+ LF).
Proof.
  apply (api_symbol_body [0] Sample.qiskit_045 {[0 := Sample.measure]} 0
           Sample.measure "qiskit.circuit.Measure" "class");
    [reflexivity | reflexivity | reflexivity | reflexivity | discriminate
    | reflexivity].
Defined.

(** C3.  A release-notes page listed once with neither a hardcoded
    payload nor an API name: with separate release notes the title and
    the description carry the version, without them they do not; both
    headers end with the heading-level key. *)
Theorem release_notes_body g results pkg (h : store) l r :
  h !! l = Some r ->
  occurrences l results = 1 ->
  truthy (hardcodedFrontmatter (meta r)) = false ->
  truthy (apiName (meta r)) = false ->
  isReleaseNotes r = true ->
  (hasSeparateReleaseNotes pkg = true ->
   markdown <$> addFrontMatter g results pkg h !! l
   = Some ("---" +:+ LF +:+
           "title: " +:+ (title pkg +:+ " " +:+ versionWithoutPatch pkg +:+
                          " release notes") +:+ LF +:+
           "description: " +:+ ("Changes made in " +:+ title pkg +:+ " " +:+
                                versionWithoutPatch pkg) +:+ LF +:+
           "in_page_toc_max_heading_level: 2" +:+ LF +:+
           "---" +:+ LF +:+ LF +:+
           markdown r +:+ LF))
  /\ (hasSeparateReleaseNotes pkg = false ->
      markdown <$> addFrontMatter g results pkg h !! l
      = Some ("---" +:+ LF +:+
              "title: " +:+ (title pkg +:+ " release notes") +:+ LF +:+
              "description: " +:+ ("Changes made to " +:+ title pkg) +:+ LF +:+
              "in_page_toc_max_heading_level: 2" +:+ LF +:+
              "---" +:+ LF +:+ LF +:+
              markdown r +:+ LF)).
Proof.
  intros Hl Ho Hh Ha Hn.
  rewrite (addFrontMatter_once g pkg results h l r Hl Ho). simpl.
  split; intros Hs; f_equal.
  - rewrite loop_body_notes_separate by done. by flatten_strings.
  - rewrite loop_body_notes_evergreen by done. by flatten_strings.
Qed.

Lemma release_notes_body_witness :
  markdown <$> addFrontMatter stringUtils.getLastPartFromFullIdentifier [0]
                 Sample.qiskit_045 {[0 := Sample.notes]} !! 0
  = Some ("---" +:+ LF +:+
          "title: Qiskit 0.45 release notes" +:+ LF +:+
          "description: Changes made in Qiskit 0.45" +:+ LF +:+
          "in_page_toc_max_heading_level: 2" +:+ LF +:+
          "---" +:+ LF +:+ LF +:+
          "## 0.45.0" +:+ LF)
  /\ markdown <$> addFrontMatter stringUtils.getLastPartFromFullIdentifier [0]
                    Sample.qiskit_evergreen {[0 := Sample.notes]} !! 0
     = Some ("---" +:+ LF +:+
             "title: Qiskit release notes" +:+ LF +:+
             "description: Changes made to Qiskit" +:+ LF +:+
             "in_page_toc_max_heading_level: 2" +:+ LF +:+
             "---" +:+ LF +:+ LF +:+
             "## 0.45.0" +:+ LF).
Proof.
  split.
  - apply (release_notes_body stringUtils.getLastPartFromFullIdentifier [0]
             Sample.qiskit_045 {[0 := Sample.notes]} 0 Sample.notes);
      reflexivity.
  - apply (release_notes_body stringUtils.getLastPartFromFullIdentifier [0]
             Sample.qiskit_evergreen {[0 := Sample.notes]} 0 Sample.notes);
      reflexivity.
Defined.

(** ** Pages that no case matches *)

Lemma iter_loop_body_passthrough g pkg n r :
  truthy (hardcodedFrontmatter (meta r)) = false ->
  truthy (apiName (meta r)) = false ->
  isReleaseNotes r = false ->
  Nat.iter n (loop_body g pkg) r = r.
Proof.
  intros Hh Ha Hn. induction n as [|n IH]; simpl; [done|].
  rewrite IH. by apply loop_body_passthrough.
Qed.

(** C4.  A page with no hardcoded payload, no API name and the
    release-notes flag off comes out of the pass with the body it went
    in with, however the array lists it. *)
Theorem passthrough_body g results pkg (h : store) l r :
  h !! l = Some r ->
  truthy (hardcodedFrontmatter (meta r)) = false ->
  truthy (apiName (meta r)) = false ->
  isReleaseNotes r = false ->
  markdown <$> addFrontMatter g results pkg h !! l = Some (markdown r).
Proof.
  intros Hl Hh Ha Hn. rewrite addFrontMatter_lookup, Hl. simpl.
  by rewrite iter_loop_body_passthrough.
Qed.

Lemma passthrough_body_witness :
  markdown <$> addFrontMatter stringUtils.getLastPartFromFullIdentifier [0; 0]
                 Sample.qiskit_045 {[0 := Sample.plain]} !! 0
  = Some "text".
Proof.
  apply (passthrough_body stringUtils.getLastPartFromFullIdentifier [0; 0]
           Sample.qiskit_045 {[0 := Sample.plain]} 0 Sample.plain);
    reflexivity.
Defined.

(** ** Order of the cases *)

(** C5.  The cases are tried in the order hardcoded, API name, release
    notes, and the first that matches decides.  A page with a hardcoded
    payload, release-notes page or not, gets the hardcoded header in
    front of its body, and the package, which only the release-notes
    case reads, has no part in the result; a page without a payload but
    with an API name gets the API header whatever its flag is; the
    release-notes header is left for flagged pages with neither. *)
Theorem first_match_wins g results pkg (h : store) l r :
  h !! l = Some r ->
  occurrences l results = 1 ->
  (truthy (hardcodedFrontmatter (meta r)) = true ->
   markdown <$> addFrontMatter g results pkg h !! l
   = Some (hardcodedHeader (interpolate (hardcodedFrontmatter (meta r)))
           +:+ LF +:+ LF +:+ markdown r +:+ LF)
   /\ forall pkg',
        addFrontMatter g results pkg' h !! l
        = addFrontMatter g results pkg h !! l)
  /\ (truthy (hardcodedFrontmatter (meta r)) = false ->
      truthy (apiName (meta r)) = true ->
      markdown <$> addFrontMatter g results pkg h !! l
      = Some (apiHeader (g (interpolate (apiName (meta r))))
                        (interpolate (apiName (meta r)))
                        (interpolate (apiType (meta r)))
              +:+ LF +:+ LF +:+ markdown r +:+ LF))
  /\ (truthy (hardcodedFrontmatter (meta r)) = false ->
      truthy (apiName (meta r)) = false ->
      isReleaseNotes r = true ->
      markdown <$> addFrontMatter g results pkg h !! l
      = Some (packageReleaseNotesHeader pkg
              +:+ LF +:+ LF +:+ markdown r +:+ LF)).
Proof.
  intros Hl Ho.
  rewrite (addFrontMatter_once g pkg results h l r Hl Ho). simpl.
  split; [|split].
  - intros Hh. split.
    + f_equal. by apply loop_body_hardcoded.
    + intros pkg'. rewrite (addFrontMatter_once g pkg' results h l r Hl Ho).
      f_equal. unfold loop_body. by rewrite Hh.
  - intros Hh Ha. f_equal. by apply loop_body_api.
  - intros Hh Ha Hn. f_equal.
    rewrite loop_body_frontMatter. unfold frontMatter. by rewrite Hh, Ha, Hn.
Qed.

Lemma first_match_wins_witness :
  markdown <$> addFrontMatter stringUtils.getLastPartFromFullIdentifier [0]
                 Sample.qiskit_045 {[0 := Sample.handwritten]} !! 0
  = Some (hardcodedHeader "title: By hand" +:+ LF +:+ LF +:+ "body" +:+ LF).
Proof.
  apply (first_match_wins stringUtils.getLastPartFromFullIdentifier [0]
           Sample.qiskit_045 {[0 := Sample.handwritten]} 0 Sample.handwritten);
    reflexivity.
Defined.

(** ** Running the pass again *)

(** C6.  The pass is not idempotent.  For a page listed once that one
    of the cases matches, the first run leaves the metadata and the flag
    as they were, so a second run over its result selects the same
    header and puts it in front once more: the body after the second
    run is that header, an empty line, the body after the first run and
    a line feed, and it differs from the body after the first run. *)
Theorem second_run_prepends_again g results pkg (h : store) l r :
  h !! l = Some r ->
  occurrences l results = 1 ->
  truthy (hardcodedFrontmatter (meta r)) = true
  \/ truthy (apiName (meta r)) = true
  \/ isReleaseNotes r = true ->
  exists lines first second,
    frontMatter g pkg r = Some (framed lines)
    /\ addFrontMatter g results pkg h !! l = Some first
    /\ addFrontMatter g results pkg (addFrontMatter g results pkg h) !! l
       = Some second
    /\ meta first = meta r
    /\ isReleaseNotes first = isReleaseNotes r
    /\ markdown first = framed lines +:+ LF +:+ LF +:+ markdown r +:+ LF
    /\ markdown second = framed lines +:+ LF +:+ LF +:+ markdown first +:+ LF
    /\ markdown second <> markdown first.
Proof.
  intros Hl Ho Hm.
  destruct (frontMatter_matches g pkg r Hm) as [lines Hf].
  pose proof (addFrontMatter_once g pkg results h l r Hl Ho) as H1.
  pose proof (addFrontMatter_once g pkg results _ l _ H1 Ho) as H2.
  exists lines, (loop_body g pkg r), (loop_body g pkg (loop_body g pkg r)).
  assert (markdown (loop_body g pkg (loop_body g pkg r))
          = framed lines +:+ LF +:+ LF +:+ markdown (loop_body g pkg r) +:+ LF)
    as Hsecond.
  { by rewrite (loop_body_frontMatter g pkg (loop_body g pkg r)),
      frontMatter_loop_body, Hf. }
  repeat split; try done.
  - apply loop_body_meta.
  - apply loop_body_isReleaseNotes.
  - by rewrite loop_body_frontMatter, Hf.
  - rewrite Hsecond.
    intros Heq. apply (f_equal String.length) in Heq.
    rewrite !string_app_length in Heq. simpl in Heq. lia.
Qed.

Lemma second_run_prepends_again_witness :
  exists lines first second,
    frontMatter stringUtils.getLastPartFromFullIdentifier Sample.qiskit_045
      Sample.handwritten = Some (framed lines)
    /\ addFrontMatter stringUtils.getLastPartFromFullIdentifier [0]
         Sample.qiskit_045 {[0 := Sample.handwritten]} !! 0 = Some first
    /\ addFrontMatter stringUtils.getLastPartFromFullIdentifier [0]
         Sample.qiskit_045
         (addFrontMatter stringUtils.getLastPartFromFullIdentifier [0]
            Sample.qiskit_045 {[0 := Sample.handwritten]}) !! 0 = Some second
    /\ meta first = meta Sample.handwritten
    /\ isReleaseNotes first = isReleaseNotes Sample.handwritten
    /\ markdown first
       = framed lines +:+ LF +:+ LF +:+ markdown Sample.handwritten +:+ LF
    /\ markdown second = framed lines +:+ LF +:+ LF +:+ markdown first +:+ LF
    /\ markdown second <> markdown first.
Proof.
  apply (second_run_prepends_again stringUtils.getLastPartFromFullIdentifier
           [0] Sample.qiskit_045 {[0 := Sample.handwritten]} 0
           Sample.handwritten);
    [reflexivity | reflexivity | left; reflexivity].
Defined.

Example second_run_handwritten :
  markdown <$>
    addFrontMatter stringUtils.getLastPartFromFullIdentifier [0]
      Sample.qiskit_045
      (addFrontMatter stringUtils.getLastPartFromFullIdentifier [0]
         Sample.qiskit_045 {[0 := Sample.handwritten]}) !! 0
  = Some ("---" +:+ LF +:+ "title: By hand" +:+ LF +:+ "---" +:+ LF +:+ LF +:+
          "---" +:+ LF +:+ "title: By hand" +:+ LF +:+ "---" +:+ LF +:+ LF +:+
          "body" +:+ LF +:+ LF).
Proof. vm_compute. reflexivity. Qed.

(** ** What the pass leaves alone *)

(** C7.  The pass writes to bodies only, and each body from its own
    page.  The store holds the same objects afterwards; every object
    keeps its metadata and its flag; an object that the array does not
    list is untouched; seen through the array, the pages are as many as
    before and carry, position by position, the metadata and flags they
    had.  An object ends as the one it began as, put through the loop
    body once per listing: what other objects hold does not enter, and
    two stores that agree on an object give the same result for it.
    The array and the package are arguments that the function reads and
    never assigns. *)
Theorem only_bodies_change g results pkg (h : store) :
  dom (addFrontMatter g results pkg h) = dom h
  /\ (forall l : loc, meta <$> addFrontMatter g results pkg h !! l = meta <$> h !! l)
  /\ (forall l : loc, isReleaseNotes <$> addFrontMatter g results pkg h !! l
                = isReleaseNotes <$> h !! l)
  /\ (forall l : loc, l ∉ results -> addFrontMatter g results pkg h !! l = h !! l)
  /\ length (pages results (addFrontMatter g results pkg h))
     = length (pages results h)
  /\ fmap (M:=option) meta <$> pages results (addFrontMatter g results pkg h)
     = fmap (M:=option) meta <$> pages results h
  /\ fmap (M:=option) isReleaseNotes <$> pages results (addFrontMatter g results pkg h)
     = fmap (M:=option) isReleaseNotes <$> pages results h
  /\ (forall l : loc, addFrontMatter g results pkg h !! l
                = Nat.iter (occurrences l results) (loop_body g pkg) <$> h !! l)
  /\ (forall (l : loc) (h2 : store),
        h2 !! l = h !! l ->
        addFrontMatter g results pkg h2 !! l
        = addFrontMatter g results pkg h !! l).
Proof.
  assert (forall l : loc, meta <$> addFrontMatter g results pkg h !! l
                    = meta <$> h !! l) as Hmeta.
  { intros l. rewrite addFrontMatter_lookup.
    destruct (h !! l); simpl; [|done]. by rewrite iter_loop_body_meta. }
  assert (forall l : loc, isReleaseNotes <$> addFrontMatter g results pkg h !! l
                    = isReleaseNotes <$> h !! l) as Hflag.
  { intros l. rewrite addFrontMatter_lookup.
    destruct (h !! l); simpl; [|done]. by rewrite iter_loop_body_isReleaseNotes. }
  repeat split; try done.
  - apply addFrontMatter_dom.
  - intros l Hl. rewrite addFrontMatter_lookup, occurrences_not_listed by done.
    by destruct (h !! l).
  - unfold pages. by rewrite !length_fmap.
  - unfold pages. rewrite <- !list_fmap_compose.
    apply list_fmap_ext. intros i l _. apply Hmeta.
  - unfold pages. rewrite <- !list_fmap_compose.
    apply list_fmap_ext. intros i l _. apply Hflag.
  - apply addFrontMatter_lookup.
  - intros l h2 H2. by rewrite !addFrontMatter_lookup, H2.
Qed.

Example listed_twice :
  markdown <$>
    addFrontMatter stringUtils.getLastPartFromFullIdentifier [0; 0]
      Sample.qiskit_045 {[0 := Sample.handwritten]} !! 0
  = Some ("---" +:+ LF +:+ "title: By hand" +:+ LF +:+ "---" +:+ LF +:+ LF +:+
          "---" +:+ LF +:+ "title: By hand" +:+ LF +:+ "---" +:+ LF +:+ LF +:+
          "body" +:+ LF +:+ LF).
Proof. vm_compute. reflexivity. Qed.

Example two_pages_one_listed :
  addFrontMatter stringUtils.getLastPartFromFullIdentifier [0]
    Sample.qiskit_045 {[0 := Sample.notes; 1 := Sample.measure]} !! 1
  = Some Sample.measure.
Proof. vm_compute. reflexivity. Qed.

(** ** The line feed after the body *)

(** C8.  In each of the three annotating cases the new body is the
    selected header, an empty line, the original body and one line feed
    after it; it is not the header set in front of the unchanged body. *)
Theorem body_gets_trailing_newline g results pkg (h : store) l r :
  h !! l = Some r ->
  occurrences l results = 1 ->
  (truthy (hardcodedFrontmatter (meta r)) = true ->
   markdown <$> addFrontMatter g results pkg h !! l
   = Some (hardcodedHeader (interpolate (hardcodedFrontmatter (meta r)))
           +:+ LF +:+ LF +:+ markdown r +:+ LF))
  /\ (truthy (hardcodedFrontmatter (meta r)) = false ->
      truthy (apiName (meta r)) = true ->
      markdown <$> addFrontMatter g results pkg h !! l
      = Some (apiHeader (g (interpolate (apiName (meta r))))
                        (interpolate (apiName (meta r)))
                        (interpolate (apiType (meta r)))
              +:+ LF +:+ LF +:+ markdown r +:+ LF))
  /\ (truthy (hardcodedFrontmatter (meta r)) = false ->
      truthy (apiName (meta r)) = false ->
      isReleaseNotes r = true ->
      markdown <$> addFrontMatter g results pkg h !! l
      = Some (packageReleaseNotesHeader pkg
              +:+ LF +:+ LF +:+ markdown r +:+ LF))
  /\ (forall header,
        frontMatter g pkg r = Some header ->
        markdown <$> addFrontMatter g results pkg h !! l
        = Some (header +:+ LF +:+ LF +:+ markdown r +:+ LF)
        /\ markdown <$> addFrontMatter g results pkg h !! l
           <> Some (header +:+ LF +:+ LF +:+ markdown r)).
Proof.
  intros Hl Ho.
  rewrite (addFrontMatter_once g pkg results h l r Hl Ho). simpl.
  rewrite loop_body_frontMatter. unfold frontMatter.
  split; [|split; [|split]].
  - by intros ->.
  - by intros -> ->.
  - by intros -> -> ->.
  - intros header ->. split; [done|].
    intros [= Heq]. apply (f_equal String.length) in Heq.
    rewrite !string_app_length in Heq. simpl in Heq. lia.
Qed.

Lemma body_gets_trailing_newline_witness :
  markdown <$> addFrontMatter stringUtils.getLastPartFromFullIdentifier [0]
                 Sample.qiskit_evergreen {[0 := Sample.notes]} !! 0
  = Some (packageReleaseNotesHeader Sample.qiskit_evergreen
          +:+ LF +:+ LF +:+ "## 0.45.0" +:+ LF).
Proof.
  apply (body_gets_trailing_newline stringUtils.getLastPartFromFullIdentifier
           [0] Sample.qiskit_evergreen {[0 := Sample.notes]} 0 Sample.notes);
    reflexivity.
Defined.

(** ** Empty strings *)

Lemma fifth_character_differs (s t : string) :
  "---" +:+ LF +:+ "title: " +:+ s <> "---" +:+ LF +:+ LF +:+ t.
Proof.
  intros Heq. apply (f_equal (String.get 4)) in Heq.
  vm_compute in Heq. discriminate.
Qed.

(** C9.  The tests are truthiness tests.  A payload that is present but
    empty is not taken by the hardcoded case: the body does not become
    the framed empty payload, the page goes on to the test of the API
    name and from there as a page without payload would.  In the same
    way a page, not taken by the hardcoded case, whose API name is
    present but empty goes on to the test of the release-notes flag. *)
Theorem empty_string_falls_through g results pkg (h : store) l r :
  h !! l = Some r ->
  occurrences l results = 1 ->
  (hardcodedFrontmatter (meta r) = Some EmptyString ->
   markdown <$> addFrontMatter g results pkg h !! l
   <> Some (hardcodedHeader EmptyString +:+ LF +:+ LF +:+ markdown r +:+ LF)
   /\ (truthy (apiName (meta r)) = true ->
       markdown <$> addFrontMatter g results pkg h !! l
       = Some (apiHeader (g (interpolate (apiName (meta r))))
                         (interpolate (apiName (meta r)))
                         (interpolate (apiType (meta r)))
               +:+ LF +:+ LF +:+ markdown r +:+ LF))
   /\ (truthy (apiName (meta r)) = false ->
       isReleaseNotes r = true ->
       markdown <$> addFrontMatter g results pkg h !! l
       = Some (packageReleaseNotesHeader pkg
               +:+ LF +:+ LF +:+ markdown r +:+ LF))
   /\ (truthy (apiName (meta r)) = false ->
       isReleaseNotes r = false ->
       markdown <$> addFrontMatter g results pkg h !! l = Some (markdown r)))
  /\ (truthy (hardcodedFrontmatter (meta r)) = false ->
      apiName (meta r) = Some EmptyString ->
      (isReleaseNotes r = true ->
       markdown <$> addFrontMatter g results pkg h !! l
       = Some (packageReleaseNotesHeader pkg
               +:+ LF +:+ LF +:+ markdown r +:+ LF))
      /\ (isReleaseNotes r = false ->
          markdown <$> addFrontMatter g results pkg h !! l
          = Some (markdown r))).
Proof.
  intros Hl Ho.
  rewrite (addFrontMatter_once g pkg results h l r Hl Ho). simpl.
  rewrite loop_body_frontMatter. unfold frontMatter.
  split.
  - intros Hh. rewrite Hh. simpl. split; [|split; [|split]].
    + intros [= Heq]. revert Heq.
      destruct (truthy (apiName (meta r))); [|destruct (isReleaseNotes r)].
      * flatten_strings. apply fifth_character_differs.
      * unfold packageReleaseNotesHeader.
        destruct (hasSeparateReleaseNotes pkg);
          flatten_strings; apply fifth_character_differs.
      * intros Heq. apply (f_equal String.length) in Heq.
        unfold hardcodedHeader, framed in Heq.
        rewrite !string_app_length in Heq. simpl in Heq. lia.
    + by intros ->.
    + by intros -> ->.
    + by intros -> ->.
  - intros Hh Ha. rewrite Hh, Ha. simpl. split; by intros ->.
Qed.

Lemma empty_string_falls_through_witness :
  markdown <$> addFrontMatter stringUtils.getLastPartFromFullIdentifier [0]
                 Sample.qiskit_045
                 {[0 := Sample.page "# Hi" (Some "class")
                          (Some "qiskit.circuit.Measure") (Some EmptyString)
                          false]} !! 0
  = Some (apiHeader "Measure" "qiskit.circuit.Measure" "class"
          +:+ LF +:+ LF +:+ "# Hi" +:+ LF)
  /\ markdown <$> addFrontMatter stringUtils.getLastPartFromFullIdentifier [0]
                    Sample.qiskit_045
                    {[0 := Sample.page "## 0.45.0" None (Some EmptyString) None
                             true]} !! 0
     = Some (packageReleaseNotesHeader Sample.qiskit_045
             +:+ LF +:+ LF +:+ "## 0.45.0" +:+ LF).
Proof.
  split.
  - apply (empty_string_falls_through stringUtils.getLastPartFromFullIdentifier
             [0] Sample.qiskit_045 _ 0
             (Sample.page "# Hi" (Some "class") (Some "qiskit.circuit.Measure")
                (Some EmptyString) false));
      reflexivity.
  - apply (empty_string_falls_through stringUtils.getLastPartFromFullIdentifier
             [0] Sample.qiskit_045 _ 0
             (Sample.page "## 0.45.0" None (Some EmptyString) None true));
      reflexivity.
Defined.

(** ** The kind of the symbol *)

(** C10.  The API case does not look at [apiType].  For a page listed
    once, without hardcoded payload and with a non-empty API name, the
    header is written whatever [apiType] holds, and its
    [python_api_type] line carries that value as the template literal
    renders it: the string itself, be it one of the documented kinds or
    not, and the word [undefined] for a missing value. *)
Theorem api_type_is_not_validated g results pkg (h : store) l r name :
  h !! l = Some r ->
  occurrences l results = 1 ->
  truthy (hardcodedFrontmatter (meta r)) = false ->
  apiName (meta r) = Some name ->
  name <> EmptyString ->
  (forall kind,
     apiType (meta r) = Some kind ->
     markdown <$> addFrontMatter g results pkg h !! l
     = Some ("---" +:+ LF +:+
             "title: " +:+ g name +:+ LF +:+
             "description: API reference for " +:+ name +:+ LF +:+
             "in_page_toc_min_heading_level: 1" +:+ LF +:+
             "python_api_type: " +:+ kind +:+ LF +:+
             "python_api_name: " +:+ name +:+ LF +:+
             "---" +:+ LF +:+ LF +:+
             markdown r +:+ LF))
  /\ (apiType (meta r) = None ->
      markdown <$> addFrontMatter g results pkg h !! l
      = Some ("---" +:+ LF +:+
              "title: " +:+ g name +:+ LF +:+
              "description: API reference for " +:+ name +:+ LF +:+
              "in_page_toc_min_heading_level: 1" +:+ LF +:+
              "python_api_type: undefined" +:+ LF +:+
              "python_api_name: " +:+ name +:+ LF +:+
              "---" +:+ LF +:+ LF +:+
              markdown r +:+ LF)).
Proof.
  intros Hl Ho Hh Hn Hne.
  rewrite (addFrontMatter_once g pkg results h l r Hl Ho). simpl.
  rewrite loop_body_api by (rewrite ?Hn; by try apply truthy_Some).
  rewrite Hn. simpl.
  split; [intros kind Hk|intros Hk]; rewrite Hk; simpl; f_equal;
    by flatten_strings.
Qed.

Lemma api_type_is_not_validated_witness :
  markdown <$> addFrontMatter stringUtils.getLastPartFromFullIdentifier [0]
                 Sample.qiskit_045
                 {[0 := Sample.page "# Hi" (Some "gadget") (Some "a.b.C") None
                          false]} !! 0
  = Some ("---" +:+ LF +:+
          "title: C" +:+ LF +:+
          "description: API reference for a.b.C" +:+ LF +:+
          "in_page_toc_min_heading_level: 1" +:+ LF +:+
          "python_api_type: gadget" +:+ LF +:+
          "python_api_name: a.b.C" +:+ LF +:+
          "---" +:+ LF +:+ LF +:+
          "# Hi" +:+ LF)
  /\ markdown <$> addFrontMatter stringUtils.getLastPartFromFullIdentifier [0]
                    Sample.qiskit_045
                    {[0 := Sample.page "# Hi" None (Some "a.b.C") None
                             false]} !! 0
     = Some ("---" +:+ LF +:+
             "title: C" +:+ LF +:+
             "description: API reference for a.b.C" +:+ LF +:+
             "in_page_toc_min_heading_level: 1" +:+ LF +:+
             "python_api_type: undefined" +:+ LF +:+
             "python_api_name: a.b.C" +:+ LF +:+
             "---" +:+ LF +:+ LF +:+
             "# Hi" +:+ LF).
Proof.
  split.
  - apply (api_type_is_not_validated stringUtils.getLastPartFromFullIdentifier
             [0] Sample.qiskit_045 _ 0
             (Sample.page "# Hi" (Some "gadget") (Some "a.b.C") None false)
             "a.b.C");
      try reflexivity. discriminate.
  - apply (api_type_is_not_validated stringUtils.getLastPartFromFullIdentifier
             [0] Sample.qiskit_045 _ 0
             (Sample.page "# Hi" None (Some "a.b.C") None false)
             "a.b.C");
      try reflexivity. discriminate.
Defined.


(** * Further properties of the pass *)

(** ** Listings and batches *)

Lemma occurrences_app l xs ys :
  occurrences l (xs ++ ys)%list = occurrences l xs + occurrences l ys.
Proof.
  induction xs as [|x xs IH]; simpl; [done|]. rewrite IH. lia.
Qed.

Lemma occurrences_Permutation l xs ys :
  xs ≡ₚ ys -> occurrences l xs = occurrences l ys.
Proof.
  induction 1 as [|x xs ys _ IH|x y xs|xs ys zs _ IH1 _ IH2]; simpl.
  - done.
  - by rewrite IH.
  - lia.
  - by rewrite IH1.
Qed.

Lemma occurrences_listed l results :
  l ∈ results -> 0 < occurrences l results.
Proof.
  induction results as [|x rest IH]; [by intros ?%elem_of_nil|].
  intros [->|Hin]%elem_of_cons; simpl.
  - rewrite decide_True by done. lia.
  - specialize (IH Hin). lia.
Qed.

(** The outcome depends on the array only through the number of times
    it lists each object. *)
Lemma addFrontMatter_by_occurrences g pkg xs ys (h : store) :
  (forall l, occurrences l xs = occurrences l ys) ->
  addFrontMatter g xs pkg h = addFrontMatter g ys pkg h.
Proof.
  intros Ho. apply map_eq. intros l.
  by rewrite !addFrontMatter_lookup, Ho.
Qed.

Lemma addFrontMatter_app g pkg xs ys (h : store) :
  addFrontMatter g (xs ++ ys)%list pkg h
  = addFrontMatter g ys pkg (addFrontMatter g xs pkg h).
Proof. unfold addFrontMatter. apply foldl_app. Qed.

(** X1.  The order of the array does not matter: two arrays that list
    the same objects the same number of times, in whatever order, leave
    the same store. *)
Theorem order_of_results_is_irrelevant g pkg xs ys (h : store) :
  xs ≡ₚ ys ->
  addFrontMatter g xs pkg h = addFrontMatter g ys pkg h.
Proof.
  intros Hp. apply addFrontMatter_by_occurrences.
  intros l. by apply occurrences_Permutation.
Qed.

Lemma order_of_results_is_irrelevant_witness :
  addFrontMatter stringUtils.getLastPartFromFullIdentifier [0; 1]
    Sample.qiskit_045 {[0 := Sample.notes; 1 := Sample.measure]}
  = addFrontMatter stringUtils.getLastPartFromFullIdentifier [1; 0]
      Sample.qiskit_045 {[0 := Sample.notes; 1 := Sample.measure]}.
Proof.
  apply (order_of_results_is_irrelevant
           stringUtils.getLastPartFromFullIdentifier Sample.qiskit_045
           [0; 1] [1; 0]).
  apply perm_swap.
Defined.

(** X2.  The array may be processed in batches: running the pass on one
    part of the array and then on the rest gives the store of a single
    run over the whole, and the two batches may be run in either
    order. *)
Theorem batches_compose_and_commute g pkg xs ys (h : store) :
  addFrontMatter g ys pkg (addFrontMatter g xs pkg h)
  = addFrontMatter g (xs ++ ys)%list pkg h
  /\ addFrontMatter g ys pkg (addFrontMatter g xs pkg h)
     = addFrontMatter g xs pkg (addFrontMatter g ys pkg h).
Proof.
  split; [by rewrite addFrontMatter_app|].
  rewrite <- !addFrontMatter_app.
  apply addFrontMatter_by_occurrences.
  intros l. rewrite !occurrences_app. lia.
Qed.

(** ** Growth of the body *)

Lemma frontMatter_matched g pkg r :
  matched r = true -> exists header, frontMatter g pkg r = Some header.
Proof.
  intros Hm. destruct (frontMatter_matches g pkg r) as [lines Hl]; [|eauto].
  unfold matched in Hm.
  destruct (truthy (hardcodedFrontmatter (meta r))); [by left|].
  destruct (truthy (apiName (meta r))); [by right; left|].
  by right; right.
Qed.

Lemma unmatched_tests r :
  matched r = false ->
  truthy (hardcodedFrontmatter (meta r)) = false
  /\ truthy (apiName (meta r)) = false
  /\ isReleaseNotes r = false.
Proof.
  unfold matched. intros [[H1 H2]%orb_false_elim H3]%orb_false_elim. done.
Qed.

Lemma iter_loop_body_frontMatter g pkg n r :
  frontMatter g pkg (Nat.iter n (loop_body g pkg) r) = frontMatter g pkg r.
Proof.
  induction n as [|n IH]; simpl; [done|]. by rewrite frontMatter_loop_body.
Qed.

(** Every turn of the loop on an object puts the same header in front:
    the body grows by the header, the empty line and the final line
    feed. *)
Lemma iter_loop_body_length g pkg n r header :
  frontMatter g pkg r = Some header ->
  String.length (markdown (Nat.iter n (loop_body g pkg) r))
  = String.length (markdown r) + n * (String.length header + 3).
Proof.
  intros Hf. induction n as [|n IH]; simpl; [lia|].
  rewrite loop_body_frontMatter, iter_loop_body_frontMatter, Hf.
  rewrite !string_app_length, IH. simpl. lia.
Qed.

(** X3.  The pass leaves the store exactly as it found it if and only
    if none of the objects that the array lists is matched by one of the
    three tests. *)
Theorem store_unchanged_iff_nothing_matched g pkg results (h : store) :
  addFrontMatter g results pkg h = h
  <-> (forall l r, l ∈ results -> h !! l = Some r -> matched r = false).
Proof.
  split.
  - intros Heq l r Hin Hl. destruct (matched r) eqn:Hm; [exfalso|done].
    destruct (frontMatter_matched g pkg r Hm) as [header Hf].
    pose proof (addFrontMatter_lookup g pkg results h l) as Hlook.
    rewrite Heq, Hl in Hlook. simpl in Hlook. injection Hlook as Hr.
    apply (f_equal (fun x => String.length (markdown x))) in Hr.
    rewrite (iter_loop_body_length g pkg _ r header Hf) in Hr.
    pose proof (occurrences_listed l results Hin). nia.
  - intros Hn. apply map_eq. intros l. rewrite addFrontMatter_lookup.
    destruct (h !! l) as [r|] eqn:Hl; simpl; [|done]. f_equal.
    destruct (decide (l ∈ results)) as [Hin|Hout].
    + destruct (unmatched_tests r (Hn l r Hin Hl)) as (Hh & Ha & Hr).
      by apply iter_loop_body_passthrough.
    + by rewrite occurrences_not_listed.
Qed.

(** X4.  A matched object that the array lists [k] times ends with a
    body longer than the original by [k] times the length of its header
    plus three, the empty line and the line feed after the body; every
    listing adds the same header again. *)
Theorem body_grows_with_every_listing g pkg results (h : store) l r header :
  h !! l = Some r ->
  frontMatter g pkg r = Some header ->
  (fun x => String.length (markdown x)) <$> addFrontMatter g results pkg h !! l
  = Some (String.length (markdown r)
          + occurrences l results * (String.length header + 3)).
Proof.
  intros Hl Hf. rewrite addFrontMatter_lookup, Hl. simpl. f_equal.
  by apply iter_loop_body_length.
Qed.

Lemma body_grows_with_every_listing_witness :
  (fun x => String.length (markdown x)) <$>
    addFrontMatter stringUtils.getLastPartFromFullIdentifier [0; 1; 0]
      Sample.qiskit_045 {[0 := Sample.handwritten; 1 := Sample.plain]} !! 0
  = Some (4 + 2 * (22 + 3)).
Proof.
  apply (body_grows_with_every_listing
           stringUtils.getLastPartFromFullIdentifier Sample.qiskit_045
           [0; 1; 0] {[0 := Sample.handwritten; 1 := Sample.plain]} 0
           Sample.handwritten (hardcodedHeader "title: By hand"));
    reflexivity.
Defined.

(** ** What each branch reads *)

Lemma loop_body_eta g pkg r :
  loop_body g pkg r = set_markdown r (markdown (loop_body g pkg r)).
Proof. unfold loop_body. destruct r. by repeat case_match. Qed.

Lemma frontMatter_same_fields g pkg x y :
  meta x = meta y -> isReleaseNotes x = isReleaseNotes y ->
  frontMatter g pkg x = frontMatter g pkg y.
Proof. unfold frontMatter. by intros -> ->. Qed.

Lemma loop_body_same_frontMatter g g' pkg pkg' r :
  frontMatter g pkg r = frontMatter g' pkg' r ->
  loop_body g pkg r = loop_body g' pkg' r.
Proof.
  intros Hf. rewrite (loop_body_eta g pkg r), (loop_body_eta g' pkg' r).
  by rewrite !loop_body_frontMatter, Hf.
Qed.

Lemma iter_loop_body_same_frontMatter g g' pkg pkg' n r :
  frontMatter g pkg r = frontMatter g' pkg' r ->
  Nat.iter n (loop_body g pkg) r = Nat.iter n (loop_body g' pkg') r.
Proof.
  intros Hf. induction n as [|n IH]; simpl; [done|]. rewrite IH.
  apply loop_body_same_frontMatter.
  rewrite (frontMatter_same_fields g pkg _ r), (frontMatter_same_fields g' pkg' _ r);
    auto using iter_loop_body_meta, iter_loop_body_isReleaseNotes.
Qed.

(** Two runs that select the same header for every listed object leave
    the same store. *)
Lemma addFrontMatter_same_frontMatter g g' pkg pkg' results (h : store) :
  (forall l r, l ∈ results -> h !! l = Some r ->
               frontMatter g pkg r = frontMatter g' pkg' r) ->
  addFrontMatter g results pkg h = addFrontMatter g' results pkg' h.
Proof.
  intros Hf. apply map_eq. intros l. rewrite !addFrontMatter_lookup.
  destruct (h !! l) as [r|] eqn:Hl; simpl; [|done]. f_equal.
  destruct (decide (l ∈ results)) as [Hin|Hout].
  - apply iter_loop_body_same_frontMatter. by apply (Hf l).
  - by rewrite occurrences_not_listed.
Qed.

(** X5.  The package is read in the release-notes branch only: when no
    listed object reaches that branch, the pass leaves the same store
    whatever package it is given. *)
Theorem package_only_read_for_release_notes g pkg pkg' results (h : store) :
  (forall l r, l ∈ results -> h !! l = Some r ->
               reaches_release_notes_branch r = false) ->
  addFrontMatter g results pkg h = addFrontMatter g results pkg' h.
Proof.
  intros Hn. apply addFrontMatter_same_frontMatter. intros l r Hin Hl.
  specialize (Hn l r Hin Hl). unfold reaches_release_notes_branch in Hn.
  unfold frontMatter.
  destruct (truthy (hardcodedFrontmatter (meta r))); [done|].
  destruct (truthy (apiName (meta r))); [done|].
  by destruct (isReleaseNotes r).
Qed.

Lemma package_only_read_for_release_notes_witness :
  addFrontMatter stringUtils.getLastPartFromFullIdentifier [0; 1; 2]
    Sample.qiskit_045
    {[0 := Sample.handwritten; 1 := Sample.measure; 2 := Sample.plain]}
  = addFrontMatter stringUtils.getLastPartFromFullIdentifier [0; 1; 2]
      Sample.qiskit_evergreen
      {[0 := Sample.handwritten; 1 := Sample.measure; 2 := Sample.plain]}.
Proof.
  apply (package_only_read_for_release_notes
           stringUtils.getLastPartFromFullIdentifier
           Sample.qiskit_045 Sample.qiskit_evergreen).
  intros l r Hin Hl. rewrite !elem_of_cons, elem_of_nil in Hin.
  destruct Hin as [->|[->|[->|[]]]]; vm_compute in Hl;
    injection Hl as <-; reflexivity.
Defined.

(** X6.  [getLastPartFromFullIdentifier] is called in the API branch
    only, on the API name: two functions that agree on the API names of
    the listed objects that reach that branch give the same store. *)
Theorem helper_only_called_in_api_branch g g' pkg results (h : store) :
  (forall l r, l ∈ results -> h !! l = Some r ->
               reaches_api_branch r = true ->
               g (interpolate (apiName (meta r)))
               = g' (interpolate (apiName (meta r)))) ->
  addFrontMatter g results pkg h = addFrontMatter g' results pkg h.
Proof.
  intros Hg. apply addFrontMatter_same_frontMatter. intros l r Hin Hl.
  specialize (Hg l r Hin Hl). unfold reaches_api_branch in Hg.
  unfold frontMatter.
  destruct (truthy (hardcodedFrontmatter (meta r))); [done|].
  destruct (truthy (apiName (meta r))); [|done].
  by rewrite Hg.
Qed.

Lemma helper_only_called_in_api_branch_witness :
  addFrontMatter stringUtils.getLastPartFromFullIdentifier [0; 1]
    Sample.qiskit_045 {[0 := Sample.handwritten; 1 := Sample.notes]}
  = addFrontMatter (fun _ => "unused") [0; 1]
      Sample.qiskit_045 {[0 := Sample.handwritten; 1 := Sample.notes]}.
Proof.
  apply (helper_only_called_in_api_branch
           stringUtils.getLastPartFromFullIdentifier (fun _ => "unused")).
  intros l r Hin Hl. rewrite !elem_of_cons, elem_of_nil in Hin.
  destruct Hin as [->|[->|[]]]; vm_compute in Hl;
    injection Hl as <-; discriminate.
Defined.

(** X7.  The version is read only for a package with separate release
    notes: two packages without them that bear the same title give the
    same store, whatever their versions. *)
Theorem version_only_read_with_separate_notes g pkg pkg' results (h : store) :
  hasSeparateReleaseNotes pkg = false ->
  hasSeparateReleaseNotes pkg' = false ->
  title pkg = title pkg' ->
  addFrontMatter g results pkg h = addFrontMatter g results pkg' h.
Proof.
  intros Hs Hs' Ht. apply addFrontMatter_same_frontMatter. intros l r _ _.
  unfold frontMatter, packageReleaseNotesHeader. by rewrite Hs, Hs', Ht.
Qed.

Lemma version_only_read_with_separate_notes_witness :
  addFrontMatter stringUtils.getLastPartFromFullIdentifier [0]
    Sample.qiskit_evergreen {[0 := Sample.notes]}
  = addFrontMatter stringUtils.getLastPartFromFullIdentifier [0]
      {| title := "Qiskit"; versionWithoutPatch := "1.0";
         hasSeparateReleaseNotes := false |}
      {[0 := Sample.notes]}.
Proof.
  apply (version_only_read_with_separate_notes
           stringUtils.getLastPartFromFullIdentifier Sample.qiskit_evergreen
           {| title := "Qiskit"; versionWithoutPatch := "1.0";
              hasSeparateReleaseNotes := false |});
    reflexivity.
Defined.

(** ** The original body inside the new one *)

Lemma substring_prefix (s t : string) :
  String.substring 0 (String.length s) (s +:+ t) = s.
Proof.
  induction s as [|c s IH].
  - by destruct t.
  - rewrite string_app_cons. simpl. by rewrite IH.
Qed.

Lemma substring_middle (a s t : string) :
  String.substring (String.length a) (String.length s) (a +:+ s +:+ t) = s.
Proof.
  induction a as [|c a IH].
  - exact (substring_prefix s t).
  - rewrite string_app_cons. simpl. apply IH.
Qed.

(** X8.  The original body is kept intact inside the new one: for a
    matched object listed once, the characters of the new body that
    follow the header and the empty line, as many as the original body
    had, are the original body. *)
Theorem original_body_recoverable g pkg results (h : store) l r header :
  h !! l = Some r ->
  occurrences l results = 1 ->
  frontMatter g pkg r = Some header ->
  (fun x => String.substring (String.length header + 2)
              (String.length (markdown r)) (markdown x))
    <$> addFrontMatter g results pkg h !! l
  = Some (markdown r).
Proof.
  intros Hl Ho Hf.
  rewrite (addFrontMatter_once g pkg results h l r Hl Ho). simpl. f_equal.
  rewrite loop_body_frontMatter, Hf.
  replace (String.length header + 2)
    with (String.length (header +:+ LF +:+ LF))
    by (rewrite !string_app_length; simpl; lia).
  rewrite <- (substring_middle (header +:+ LF +:+ LF) (markdown r) LF) at 3.
  by rewrite !string_app_assoc.
Qed.

Lemma original_body_recoverable_witness :
  (fun x => String.substring (22 + 2) 4 (markdown x))
    <$> addFrontMatter stringUtils.getLastPartFromFullIdentifier [0]
          Sample.qiskit_045 {[0 := Sample.handwritten]} !! 0
  = Some "body".
Proof.
  apply (original_body_recoverable stringUtils.getLastPartFromFullIdentifier
           Sample.qiskit_045 [0] {[0 := Sample.handwritten]} 0
           Sample.handwritten (hardcodedHeader "title: By hand"));
    reflexivity.
Defined.

(** ** Nothing is lost *)

Lemma string_app_LF_inj (s t : string) : s +:+ LF = t +:+ LF -> s = t.
Proof.
  revert t. induction s as [|c s IH]; intros [|d t] Heq.
  - done.
  - rewrite string_app_cons in Heq. injection Heq as _ Heq.
    apply (f_equal String.length) in Heq.
    rewrite string_app_length in Heq. simpl in Heq. lia.
  - rewrite string_app_cons in Heq. injection Heq as _ Heq.
    apply (f_equal String.length) in Heq.
    rewrite string_app_length in Heq. simpl in Heq. lia.
  - rewrite !string_app_cons in Heq. injection Heq as -> Heq.
    by rewrite (IH t Heq).
Qed.

Lemma loop_body_inj g pkg x y :
  loop_body g pkg x = loop_body g pkg y -> x = y.
Proof.
  intros Heq.
  assert (meta x = meta y) as Hm.
  { by rewrite <- (loop_body_meta g pkg x), Heq, loop_body_meta. }
  assert (isReleaseNotes x = isReleaseNotes y) as Hr.
  { by rewrite <- (loop_body_isReleaseNotes g pkg x), Heq,
      loop_body_isReleaseNotes. }
  assert (markdown x = markdown y) as Hb.
  { apply (f_equal markdown) in Heq.
    rewrite !loop_body_frontMatter in Heq.
    rewrite (frontMatter_same_fields g pkg x y Hm Hr) in Heq.
    destruct (frontMatter g pkg y) as [header|]; [|done].
    rewrite <- !(string_app_assoc header LF) in Heq.
    rewrite <- !(string_app_assoc (header +:+ LF) LF) in Heq.
    apply String.app_inj in Heq. by apply string_app_LF_inj. }
  destruct x, y. simpl in *. by subst.
Qed.

Lemma iter_loop_body_inj g pkg n x y :
  Nat.iter n (loop_body g pkg) x = Nat.iter n (loop_body g pkg) y -> x = y.
Proof.
  induction n as [|n IH]; simpl; [done|].
  intros Heq. by apply IH, (loop_body_inj g pkg).
Qed.

(** X9.  The pass loses nothing: two stores that it maps to the same
    store, for the same array and package, were the same store. *)
Theorem pass_is_injective g pkg results (h1 h2 : store) :
  addFrontMatter g results pkg h1 = addFrontMatter g results pkg h2 ->
  h1 = h2.
Proof.
  intros Heq. apply map_eq. intros l.
  apply (f_equal (fun m : store => m !! l)) in Heq. simpl in Heq.
  rewrite !addFrontMatter_lookup in Heq.
  destruct (h1 !! l) as [x|], (h2 !! l) as [y|]; simpl in Heq; try done.
  injection Heq as Heq. f_equal. by apply (iter_loop_body_inj g pkg) in Heq.
Qed.

Lemma pass_is_injective_witness :
  ({[0 := Sample.handwritten]} : store) = {[0 := Sample.handwritten]}.
Proof.
  apply (pass_is_injective stringUtils.getLastPartFromFullIdentifier
           Sample.qiskit_045 [0]).
  reflexivity.
Defined.

(** ** The shape of an annotated body *)

Lemma matched_tests r :
  matched r = true ->
  truthy (hardcodedFrontmatter (meta r)) = true
  \/ truthy (apiName (meta r)) = true
  \/ isReleaseNotes r = true.
Proof.
  unfold matched.
  destruct (truthy (hardcodedFrontmatter (meta r))); [by left|].
  destruct (truthy (apiName (meta r))); [by right; left|].
  by right; right.
Qed.

(** X10.  However many times the array lists a matched object, once or
    more, its final body opens with the line of three hyphens and ends
    with a line feed. *)
Theorem annotated_body_shape g pkg results (h : store) l r :
  h !! l = Some r ->
  l ∈ results ->
  matched r = true ->
  exists rest,
    markdown <$> addFrontMatter g results pkg h !! l
    = Some ("---" +:+ LF +:+ rest +:+ LF).
Proof.
  intros Hl Hin Hm.
  destruct (frontMatter_matches g pkg r (matched_tests r Hm)) as [lines Hf].
  pose proof (occurrences_listed l results Hin) as Ho.
  destruct (occurrences l results) as [|n] eqn:Hn; [lia|].
  rewrite addFrontMatter_lookup, Hl, Hn. simpl.
  rewrite loop_body_frontMatter, iter_loop_body_frontMatter, Hf.
  exists (lines +:+ LF +:+ "---" +:+ LF +:+ LF +:+
          markdown (Nat.iter n (loop_body g pkg) r)).
  f_equal. by flatten_strings.
Qed.

Lemma annotated_body_shape_witness :
  exists rest,
    markdown <$> addFrontMatter stringUtils.getLastPartFromFullIdentifier
                   [0; 1; 0] Sample.qiskit_045
                   {[0 := Sample.notes; 1 := Sample.measure]} !! 0
    = Some ("---" +:+ LF +:+ rest +:+ LF).
Proof.
  apply (annotated_body_shape stringUtils.getLastPartFromFullIdentifier
           Sample.qiskit_045 [0; 1; 0]
           {[0 := Sample.notes; 1 := Sample.measure]} 0 Sample.notes);
    [reflexivity | apply elem_of_cons; by left | reflexivity].
Defined.
